(** * Mermaid flowchart service (app.py): model and verified properties

    A shallow embedding of [app.py]: the two LLM helpers
    [call_llm_for_initial_flowchart] and [call_llm_for_refinement], the
    document reader [extract_text_from_docx] and the two Flask views
    [generate_flowchart] and [refine_flowchart].

    Conventions.
    - A Python [str] is a [string] whose characters are code points below
      256.  Rocq string literals have no escape sequences: the literal
      ["\n"] is the two characters backslash and [n], which is what Python
      writes ["\\n"]; the line feed that Python writes ["\n"] is [NL].
    - Python's [+] on [str] is [+:+].
    - What the code prints is not modelled. *)

From Stdlib Require Import String Ascii List ZArith NArith PrimFloat Lia Bool.
From stdpp Require Import gmap strings.

Open Scope string_scope.

(** ** Python [str] methods used by app.py *)

Module PyStr.

(** The line feed, Python's ["\n"]. *)
Definition NL : string := String (ascii_of_nat 10) EmptyString.

(** The double quote, which occurs in one of CPython's messages. *)
Definition DQ : string := String (ascii_of_nat 34) EmptyString.

(** [str.isspace] on one character: the white space of Unicode below 256
    (tab to carriage return, the four separators 0x1c-0x1f, space, NEL and
    the no-break space). *)
Definition isspace (c : ascii) : bool :=
  let n := N_of_ascii c in
  ((9 <=? n) && (n <=? 13) || (28 <=? n) && (n <=? 32)
   || (n =? 133) || (n =? 160))%N.

(** [s.lstrip()]. *)
Fixpoint lstrip (s : string) : string :=
  match s with
  | EmptyString => EmptyString
  | String c r => if isspace c then lstrip r else s
  end.

(** [s.rstrip()]. *)
Fixpoint rstrip (s : string) : string :=
  match s with
  | EmptyString => EmptyString
  | String c r =>
      match rstrip r with
      | EmptyString => if isspace c then EmptyString else String c EmptyString
      | r' => String c r'
      end
  end.

(** [s.strip()]: white space removed at both ends. *)
Definition strip (s : string) : string := rstrip (lstrip s).

(** [s.startswith(p)]. *)
Fixpoint startswith (s p : string) : bool :=
  match p, s with
  | EmptyString, _ => true
  | String a p', String b s' => Ascii.eqb a b && startswith s' p'
  | String _ _, EmptyString => false
  end.

(** [s[n:]] for [n >= 0]. *)
Fixpoint slice_from (n : nat) (s : string) : string :=
  match n, s with
  | O, _ => s
  | S n', String _ r => slice_from n' r
  | S _, EmptyString => EmptyString
  end.

(** [s[:n]] for [n >= 0]. *)
Fixpoint slice_to (n : nat) (s : string) : string :=
  match n, s with
  | S n', String c r => String c (slice_to n' r)
  | _, _ => EmptyString
  end.

(** [s[:-n]] for [n > 0]: all but the last [n] characters. *)
Definition slice_to_neg (n : nat) (s : string) : string :=
  slice_to (String.length s - n) s.

(** [s.endswith(p)]. *)
Definition endswith (s p : string) : bool :=
  (String.length p <=? String.length s)%nat
  && String.eqb (slice_from (String.length s - String.length p) s) p.

(** [sub in s]. *)
Fixpoint contains (s sub : string) : bool :=
  startswith s sub
  || match s with
     | EmptyString => false
     | String _ r => contains r sub
     end.

(** [c.lower()] on one character below 256: the ASCII capitals and the
    Latin-1 capitals (0xC0-0xDE but the multiplication sign 0xD7). *)
Definition lower_char (c : ascii) : ascii :=
  let n := N_of_ascii c in
  if ((65 <=? n) && (n <=? 90)
      || (192 <=? n) && (n <=? 222) && negb (n =? 215))%N
  then ascii_of_N (n + 32) else c.

(** [s.lower()]. *)
Fixpoint lower (s : string) : string :=
  match s with
  | EmptyString => EmptyString
  | String c r => String (lower_char c) (lower r)
  end.

(** [sep.join(l)]. *)
Fixpoint join (sep : string) (l : list string) : string :=
  match l with
  | [] => EmptyString
  | [x] => x
  | x :: r => x +:+ sep +:+ join sep r
  end.

End PyStr.

Import PyStr.

(** ** Python values, exceptions and the effects of a request *)

Module Py.

(** A value decoded from JSON by [request.get_json()]: [None], a [bool],
    an [int], a [float] (a binary64), a [str], a [list] or a [dict] with
    [str] keys. *)
#[warnings="-register-all"]
Inductive pyval : Type :=
| PNone
| PBool (b : bool)
| PInt (n : Z)
| PFloat (f : float)
| PStr (s : string)
| PList (l : list pyval)
| PDict (d : gmap string pyval).

(** [bool(v)], the truth value that [not v] negates. *)
Definition truthy (v : pyval) : bool :=
  match v with
  | PNone => false
  | PBool b => b
  | PInt n => negb (n =? 0)%Z
  | PFloat f => negb (f =? 0)%float
  | PStr s => negb (String.eqb s "")
  | PList l => match l with [] => false | _ :: _ => true end
  | PDict d => negb (bool_decide (d = ∅))
  end.

(** [type(v).__name__]. *)
Definition type_name (v : pyval) : string :=
  match v with
  | PNone => "NoneType"
  | PBool _ => "bool"
  | PInt _ => "int"
  | PFloat _ => "float"
  | PStr _ => "str"
  | PList _ => "list"
  | PDict _ => "dict"
  end.

(** An instance of [Exception], which is what [except Exception] catches;
    [msg] is [str(e)], the text an f-string puts for [{e}]. *)
Inductive exn : Type := Exception (msg : string).

Definition str_exn (e : exn) : string := let 'Exception msg := e in msg.

(** The outcome of evaluating Python code: a value, or a raised exception. *)
Inductive result (A : Type) : Type :=
| Return (a : A)
| Raise (e : exn).
Arguments Return {A} a.
Arguments Raise {A} e.

(** Code that may raise and that threads a state of type [S]. *)
Definition M (S A : Type) : Type := S -> result A * S.

Definition ret {S A} (a : A) : M S A := fun s => (Return a, s).

Definition raise {S A} (e : exn) : M S A := fun s => (Raise e, s).

Definition bind {S A B} (c : M S A) (k : A -> M S B) : M S B :=
  fun s =>
    match c s with
    | (Return a, s') => k a s'
    | (Raise e, s') => (Raise e, s')
    end.

(** [try: body except Exception as e: handler]. *)
Definition try_except {S A} (body : M S A) (handler : exn -> M S A) : M S A :=
  fun s =>
    match body s with
    | (Return a, s') => (Return a, s')
    | (Raise e, s') => handler e s'
    end.

(** A pure computation that may raise, run inside [M]. *)
Definition lift {S A} (r : result A) : M S A := fun s => (r, s).

(** [v + t] for a [str] [t]: concatenation when [v] is a [str], else the
    [TypeError] of CPython. *)
Definition add_str (v : pyval) (t : string) : result string :=
  match v with
  | PStr s => Return (s +:+ t)
  | PList _ =>
      Raise (Exception ("can only concatenate list (not " +:+ DQ +:+ "str"
                        +:+ DQ +:+ ") to list"))
  | _ =>
      Raise (Exception ("unsupported operand type(s) for +: '"
                        +:+ type_name v +:+ "' and 'str'"))
  end.

(** [d.get(k)]: [None] for an absent key of a [dict]; the other JSON
    values have no attribute [get]. *)
Definition get (d : pyval) (k : string) : result pyval :=
  match d with
  | PDict m => Return (default PNone (m !! k))
  | _ =>
      Raise (Exception ("'" +:+ type_name d
                        +:+ "' object has no attribute 'get'"))
  end.

End Py.

Import Py.

Notation "'let*' x ':=' c 'in' k" := (bind c (fun x => k))
  (at level 10, x name, c at level 100, k at level 200, only parsing).

(** ** app.py *)

Module App.

(** The keyword arguments of [client.chat.completions.create]; a message
    is its role and its content. *)
Record chat_request : Type := {
  model : string;
  messages : list (string * string);
  temperature : float;
  max_tokens : Z
}.

(** What a request handler finds around it.
    - [llm_api_key] is [os.getenv("OPENAI_API_KEY")].
    - [client] is the LLM provider behind the module's [client]: what
      awaiting [client.chat.completions.create(...)] and reading
      [response.choices[0].message.content] gives, a content that may be
      [None], or the exception raised on the way.
    - [py_str] is the builtin [str] on the values that are not a [str]. *)
Record environment : Type := {
  llm_api_key : option string;
  client : chat_request -> result (option string);
  py_str : pyval -> string
}.

(** The state a handler threads: the requests sent to the LLM so far. *)
Definition calls : Type := list chat_request.

(** The parts of [request] that the [/generate] view reads: the upload
    under ['file'] and the form field ['text'], each absent or present. A
    [FileStorage] is its file name and what python-docx makes of its
    bytes: the exception [Document] raises, or the paragraphs' texts. *)
Record paragraph : Type := { text : string }.

Record FileStorage : Type := {
  filename : string;
  read : result (list paragraph)
}.

Record generate_request : Type := {
  files_file : option FileStorage;
  form_text : option string
}.

(** The part of [request] that the [/refine] view reads: the outcome of
    [request.get_json()]. *)
Record refine_request : Type := {
  get_json : result pyval
}.

(** What a view returns: [jsonify(d)] alone has status 200, [jsonify(d),
    code] has status [code]; [d] is a dict of one entry. *)
Record response : Type := {
  status : Z;
  body : list (string * string)
}.

Definition jsonify (d : list (string * string)) (code : Z) : response :=
  {| status := code; body := d |}.

(** [not o] is false for an [Optional[str]] that is a non-empty [str]. *)
Definition str_truthy (o : option string) : bool :=
  match o with
  | Some s => negb (String.eqb s "")
  | None => false
  end.

(** The text an f-string puts for [{v}]. *)
Definition format (py_str : pyval -> string) (v : pyval) : string :=
  match v with
  | PStr s => s
  | _ => py_str v
  end.

(** [content.strip()] raises on a content that is [None]. *)
Definition content_str (content : option string) : result string :=
  match content with
  | Some s => Return s
  | None => Raise (Exception "'NoneType' object has no attribute 'strip'")
  end.

(** Lines 69-75 and, with another variable name, lines 127-133: the
    clean-up of the LLM's reply. *)
Definition sanitize (content : string) : string :=
  let mermaid_code := strip content in
  let mermaid_code :=
    if startswith mermaid_code "```mermaid"
    then strip (slice_from (String.length "```mermaid") mermaid_code)
    else mermaid_code in
  let mermaid_code :=
    if endswith mermaid_code "```"
    then strip (slice_to_neg (String.length "```") mermaid_code)
    else mermaid_code in
  mermaid_code.

(** The f-string of lines 46-57. *)
Definition initial_prompt (process_text : string) : string :=
  join NL
    [ "";
      "    Convert the following process description into Mermaid flowchart syntax (using graph TD for top-down).";
      "    Keep the flowchart clear and concise. Use brief node descriptions.";
      "    Ensure the output is ONLY the Mermaid code block, starting with ```mermaid and ending with ```.";
      "";
      "    Process Description:";
      "    ---";
      "    " +:+ process_text;
      "    ---";
      "";
      "    Mermaid Code:";
      "    " ].

(** The f-string of lines 97-115. *)
Definition refinement_prompt (current_mermaid instruction : string) : string :=
  join NL
    [ "";
      "    Refine the following Mermaid flowchart based on the user's instruction.";
      "    Output ONLY the complete, updated Mermaid code block, starting with ```mermaid and ending with ```.";
      "    Do not include explanations or apologies.";
      "";
      "    Current Mermaid Code:";
      "    ---";
      "    ```mermaid";
      "    " +:+ current_mermaid;
      "    ```";
      "    ---";
      "";
      "    User Instruction:";
      "    ---";
      "    " +:+ instruction;
      "    ---";
      "";
      "    Updated Mermaid Code:";
      "    " ].

Definition initial_request (process_text : string) : chat_request :=
  {| model := "gpt-3.5-turbo";
     messages :=
       [ ("system", "You are an expert in generating Mermaid flowchart syntax.");
         ("user", initial_prompt process_text) ];
     temperature := 0.5;
     max_tokens := 1000 |}.

#[warnings="-inexact-float"]
Definition refinement_request (current_mermaid instruction : string)
  : chat_request :=
  {| model := "gpt-3.5-turbo";
     messages :=
       [ ("system", "You are an expert in refining Mermaid flowchart syntax based on instructions.");
         ("user", refinement_prompt current_mermaid instruction) ];
     temperature := 0.6;
     max_tokens := 1500 |}.

Section Handlers.

Variable env : environment.

(** [await client.chat.completions.create(...)] followed by
    [response.choices[0].message.content]: one more call on the record. *)
Definition create (req : chat_request) : M calls (option string) :=
  fun log => (client env req, (log ++ [req])%list).

Definition call_llm_for_initial_flowchart (process_text : string)
  : M calls string :=
  if negb (str_truthy (llm_api_key env)) then
    ret "graph TD\nError[LLM API Key Not Configured]"
  else
    try_except
      (let* content := create (initial_request process_text) in
       let* content := lift (content_str content) in
       let mermaid_code := sanitize content in
       if negb (startswith (strip mermaid_code) "graph") then
         ret "graph TD\nError[LLM did not return valid Mermaid code]"
       else
         ret mermaid_code)
      (fun e =>
         ret ("graph TD\nError[Error calling LLM: " +:+ str_exn e +:+ "]")).

Definition call_llm_for_refinement (current_mermaid instruction : pyval)
  : M calls string :=
  if negb (str_truthy (llm_api_key env)) then
    lift (add_str current_mermaid "\n%% Error: LLM API Key Not Configured")
  else
    try_except
      (let* content :=
         create (refinement_request (format (py_str env) current_mermaid)
                                    (format (py_str env) instruction)) in
       let* content := lift (content_str content) in
       let updated_mermaid_code := sanitize content in
       if negb (startswith (strip updated_mermaid_code) "graph") then
         lift (add_str current_mermaid
                       "\n%% LLM Error: Invalid refinement response")
       else
         ret updated_mermaid_code)
      (fun e =>
         lift (add_str current_mermaid ("\n%% LLM Error: " +:+ str_exn e))).

(** [None] stands for Python's [None]. The loop appends each paragraph's
    text to [full_text]. *)
Definition extract_text_from_docx (file_stream : result (list paragraph))
  : option string :=
  match file_stream with
  | Return paragraphs =>
      let full_text :=
        fold_left (fun full_text para => (full_text ++ [text para])%list)
                  paragraphs [] in
      Some (join NL full_text)
  | Raise _ => None
  end.

(** The view of [POST /generate]. The first component of the pair is
    [process_text], the second [error_message]; a [FileStorage] is true
    when its file name is not empty. *)
Definition generate_flowchart (request : generate_request)
  : M calls response :=
  try_except
    (let '(process_text, error_message) :=
       match files_file request with
       | Some file =>
           if String.eqb (filename file) "" then
             (None, Some "No file selected.")
           else if negb (String.eqb (filename file) "")
                   && endswith (lower (filename file)) ".docx" then
             let process_text := extract_text_from_docx (read file) in
             match process_text with
             | None => (None, Some "Error extracting text from DOCX file.")
             | Some _ => (process_text, None)
             end
           else
             (None, Some "Invalid file type. Please upload a .docx file.")
       | None =>
           match form_text request with
           | Some t =>
               let process_text := strip t in
               if negb (str_truthy (Some process_text)) then
                 (Some process_text, Some "Text input cannot be empty.")
               else
                 (Some process_text, None)
           | None => (None, None)
           end
       end in
     if str_truthy error_message then
       ret (jsonify [("error", default "" error_message)] 400)
     else
       match process_text with
       | None =>
           ret (jsonify
                  [("error", "No valid input provided (text or .docx file).")]
                  400)
       | Some process_text =>
           let* mermaid_code := call_llm_for_initial_flowchart process_text in
           ret (jsonify [("mermaid_code", mermaid_code)] 200)
       end)
    (fun e =>
       ret (jsonify [("error", "An unexpected error occurred on the server.")]
                    500)).

(** The view of [POST /refine]. *)
Definition refine_flowchart (request : refine_request) : M calls response :=
  try_except
    (let* data := lift (get_json request) in
     if negb (truthy data) then
       ret (jsonify [("error", "Invalid request data. Expected JSON.")] 400)
     else
       let* current_mermaid := lift (get data "current_mermaid") in
       let* instruction := lift (get data "instruction") in
       if negb (truthy current_mermaid) || negb (truthy instruction) then
         ret (jsonify
                [("error",
                  "Missing 'current_mermaid' or 'instruction' in request.")]
                400)
       else
         let* updated_mermaid :=
           call_llm_for_refinement current_mermaid instruction in
         ret (jsonify [("mermaid_code", updated_mermaid)] 200))
    (fun e =>
       ret (jsonify
              [("error", "An unexpected error occurred during refinement.")]
              500)).

End Handlers.

End App.

Import App.

(** A stub environment, as a test would inject it: the credential [key]
    and a client that answers every request with [reply]. *)
Definition stub (key : option string) (reply : result (option string))
  : environment :=
  {| llm_api_key := key; client := fun _ => reply; py_str := fun _ => "" |}.

(** The requests and texts of the scenarios. *)
Definition graph_AB : string := "graph TD" +:+ NL +:+ "A-->B".

Definition fenced_graph_AB : string :=
  "```mermaid" +:+ NL +:+ graph_AB +:+ NL +:+ "```".

Definition doubly_fenced : string :=
  "```mermaid" +:+ NL +:+ "```mermaid" +:+ NL +:+ "graph TD" +:+ NL
  +:+ "```" +:+ NL +:+ "```".

Definition text_request (t : string) : generate_request :=
  {| files_file := None; form_text := Some t |}.

Definition docx_request (name : string) (texts : list string)
  : generate_request :=
  {| files_file :=
       Some {| filename := name;
               read := Return (map (fun t => {| text := t |}) texts) |};
     form_text := None |}.

Definition json_request (d : gmap string pyval) : refine_request :=
  {| get_json := Return (PDict d) |}.

Definition missing_fields : list (string * string) :=
  [("error", "Missing 'current_mermaid' or 'instruction' in request.")].

(** * Properties *)

(** ** Facts on [strip] and slices *)

Section StripFacts.

Lemma lstrip_length s : String.length (lstrip s) <= String.length s.
Proof. induction s as [|c r IH]; simpl; [lia|]. destruct (isspace c); simpl; lia. Qed.

Lemma rstrip_length s : String.length (rstrip s) <= String.length s.
Proof.
  induction s as [|c r IH]; simpl; [lia|].
  destruct (rstrip r); destruct (isspace c); simpl in *; lia.
Qed.

Lemma strip_length s : String.length (strip s) <= String.length s.
Proof.
  unfold strip. pose proof (rstrip_length (lstrip s)).
  pose proof (lstrip_length s). lia.
Qed.

Lemma lstrip_idem s : lstrip (lstrip s) = lstrip s.
Proof.
  induction s as [|c r IH]; simpl; [reflexivity|].
  destruct (isspace c) eqn:E; [exact IH|]. simpl. now rewrite E.
Qed.

Lemma rstrip_idem s : rstrip (rstrip s) = rstrip s.
Proof.
  induction s as [|c r IH]; simpl; [reflexivity|].
  destruct (rstrip r) as [|b r'] eqn:E.
  - destruct (isspace c) eqn:Ec; simpl; [reflexivity|]. now rewrite Ec.
  - change (rstrip (String c (String b r'))) with
      (match rstrip (String b r') with
       | EmptyString => if isspace c then EmptyString else String c EmptyString
       | String x y => String c (String x y)
       end).
    now rewrite IH.
Qed.

(** A string that does not start with white space still does not after
    [rstrip]. *)
Lemma lstrip_rstrip s : lstrip s = s -> lstrip (rstrip s) = rstrip s.
Proof.
  destruct s as [|c r]; [reflexivity|]. simpl.
  destruct (isspace c) eqn:E; intros H.
  - pose proof (lstrip_length r) as L. rewrite H in L. simpl in L. lia.
  - destruct (rstrip r); simpl; now rewrite E.
Qed.

Lemma strip_idem s : strip (strip s) = strip s.
Proof.
  unfold strip. rewrite (lstrip_rstrip (lstrip s) (lstrip_idem s)).
  apply rstrip_idem.
Qed.

Lemma slice_from_length n s :
  String.length (slice_from n s) = String.length s - n.
Proof.
  revert s. induction n as [|n IH]; intros [|c r]; simpl; auto.
Qed.

Lemma slice_to_length n s :
  String.length (slice_to n s) = Nat.min n (String.length s).
Proof.
  revert s. induction n as [|n IH]; intros [|c r]; simpl; auto.
Qed.

Lemma startswith_length s p :
  startswith s p = true -> String.length p <= String.length s.
Proof.
  revert s. induction p as [|a p IH]; intros [|b s]; simpl; try lia; try discriminate.
  intros H. apply andb_prop in H as [_ H]. apply IH in H. lia.
Qed.

Lemma endswith_length s p :
  endswith s p = true -> String.length p <= String.length s.
Proof.
  unfold endswith. intros H. apply andb_prop in H as [H _].
  now apply Nat.leb_le in H.
Qed.

End StripFacts.

(** ** Facts on [sanitize] *)

Section SanitizeFacts.

(** The sanitized text carries no white space at either end. *)
Lemma sanitize_stripped s : strip (sanitize s) = sanitize s.
Proof.
  unfold sanitize.
  destruct (startswith (strip s) _);
    match goal with |- context [endswith ?x ?y] => destruct (endswith x y) end;
    apply strip_idem.
Qed.

(** A pass that removes a marker makes the text shorter. *)
Lemma sanitize_shorter s :
  startswith (strip s) "```mermaid" = true \/ endswith (strip s) "```" = true ->
  String.length (sanitize s) < String.length (strip s).
Proof.
  unfold sanitize.
  change (String.length "```mermaid") with 10.
  change (String.length "```") with 3.
  destruct (startswith (strip s) "```mermaid") eqn:Hs.
  - intros _. apply startswith_length in Hs.
    change (String.length "```mermaid") with 10 in Hs.
    set (m := strip (slice_from 10 (strip s))).
    assert (Hm : String.length m + 10 <= String.length (strip s)).
    { subst m. pose proof (strip_length (slice_from 10 (strip s))) as L.
      rewrite slice_from_length in L. lia. }
    destruct (endswith m "```"); [|lia].
    pose proof (strip_length (slice_to_neg 3 m)) as L.
    unfold slice_to_neg in *. rewrite slice_to_length in L. lia.
  - intros [H|H]; [discriminate|]. rewrite H.
    apply endswith_length in H.
    change (String.length "```") with 3 in H.
    pose proof (strip_length (slice_to_neg 3 (strip s))) as L.
    unfold slice_to_neg in *. rewrite slice_to_length in L. lia.
Qed.

(** A text that carries no marker and no outer white space is left as
    it is. *)
Lemma sanitize_clean s :
  strip s = s ->
  startswith s "```mermaid" = false -> endswith s "```" = false ->
  sanitize s = s.
Proof. intros H1 H2 H3. unfold sanitize. now rewrite H1, H2, H3. Qed.

End SanitizeFacts.

(** ** Sanitization *)

Section Sanitization.

(** C3, as stated, fails: on a reply fenced twice a first pass strips one
    marker at each end and a second pass strips the inner ones, so the
    second pass changes the text. *)
Lemma sanitize_twice_differs :
  sanitize doubly_fenced = "```mermaid" +:+ NL +:+ "graph TD" +:+ NL +:+ "```"
  /\ sanitize (sanitize doubly_fenced) = "graph TD"
  /\ sanitize (sanitize doubly_fenced) <> sanitize doubly_fenced.
Proof. vm_compute. repeat split. discriminate. Qed.

(** C3, amended: sanitizing twice gives the same text as sanitizing once
    exactly when the text sanitized once neither starts with the opening
    marker nor ends with the closing marker. *)
Theorem sanitize_idempotent_iff (s : string) :
  sanitize (sanitize s) = sanitize s
  <-> startswith (sanitize s) "```mermaid" = false
      /\ endswith (sanitize s) "```" = false.
Proof.
  split.
  - intros H.
    destruct (startswith (sanitize s) "```mermaid") eqn:Hs;
      destruct (endswith (sanitize s) "```") eqn:He; auto;
      exfalso;
      assert (L : String.length (sanitize (sanitize s))
                  < String.length (strip (sanitize s)))
        by (apply sanitize_shorter; rewrite sanitize_stripped; auto);
      rewrite sanitize_stripped, H in L; lia.
  - intros [Hs He]. apply sanitize_clean; auto using sanitize_stripped.
Qed.

End Sanitization.

(** ** Document extraction *)

Section Extraction.

Lemma full_text_loop (paragraphs : list paragraph) (acc : list string) :
  fold_left (fun full_text para => (full_text ++ [text para])%list)
            paragraphs acc
  = (acc ++ map text paragraphs)%list.
Proof.
  revert acc. induction paragraphs as [|p ps IH]; intros acc; simpl.
  - now rewrite app_nil_r.
  - rewrite IH. now rewrite <- app_assoc.
Qed.

(** C8: the extracted text is the paragraphs' texts joined by one line
    feed, and the paragraphs "Step 1", "", "Step 2" give the text
    "Step 1", line feed, line feed, "Step 2". *)
Theorem extract_text_from_docx_join :
  (forall paragraphs : list paragraph,
     extract_text_from_docx (Return paragraphs)
     = Some (join NL (map text paragraphs)))
  /\ extract_text_from_docx
       (Return [ {| text := "Step 1" |}; {| text := "" |};
                 {| text := "Step 2" |} ])
     = Some ("Step 1" +:+ NL +:+ NL +:+ "Step 2").
Proof.
  split; [|reflexivity].
  intros paragraphs. unfold extract_text_from_docx.
  now rewrite full_text_loop.
Qed.

End Extraction.

(** ** The LLM helpers *)

Section Helpers.

Variable env : environment.

(** With a credential, the synthesizer's answer follows the outcome of
    its one call. *)
Lemma initial_flowchart_configured process_text log :
  str_truthy (llm_api_key env) = true ->
  call_llm_for_initial_flowchart env process_text log
  = (Return
       match client env (initial_request process_text) with
       | Return (Some content) =>
           if startswith (strip (sanitize content)) "graph"
           then sanitize content
           else "graph TD\nError[LLM did not return valid Mermaid code]"
       | Return None =>
           "graph TD\nError[Error calling LLM: 'NoneType' object has no attribute 'strip']"
       | Raise e => "graph TD\nError[Error calling LLM: " +:+ str_exn e +:+ "]"
       end,
     (log ++ [initial_request process_text])%list).
Proof.
  intros Hkey. unfold call_llm_for_initial_flowchart.
  rewrite Hkey. unfold try_except, bind, create, lift, ret.
  destruct (client env (initial_request process_text)) as [[content|]|e];
    cbn [negb content_str]; try reflexivity.
  now destruct (startswith (strip (sanitize content)) "graph").
Qed.

(** With a credential, the refiner's answer follows the outcome of its
    one call; [current] is a [str]. *)
Lemma refinement_configured current instruction log :
  str_truthy (llm_api_key env) = true ->
  let req := refinement_request current (format (py_str env) instruction) in
  call_llm_for_refinement env (PStr current) instruction log
  = (Return
       match client env req with
       | Return (Some content) =>
           if startswith (strip (sanitize content)) "graph"
           then sanitize content
           else current +:+ "\n%% LLM Error: Invalid refinement response"
       | Return None =>
           current +:+ "\n%% LLM Error: 'NoneType' object has no attribute 'strip'"
       | Raise e => current +:+ "\n%% LLM Error: " +:+ str_exn e
       end,
     (log ++ [req])%list).
Proof.
  intros Hkey req. unfold call_llm_for_refinement.
  rewrite Hkey. unfold try_except, bind, create, lift, ret.
  cbn [format negb]. fold req.
  destruct (client env req) as [[content|]|e];
    cbn [content_str add_str]; try reflexivity.
  now destruct (startswith (strip (sanitize content)) "graph").
Qed.

(** C9: on every branch the synthesizer returns a text, which is not
    empty and starts with "graph". *)
Theorem call_llm_for_initial_flowchart_graph (process_text : string)
    (log : calls) :
  exists (code : string) (log' : calls),
    call_llm_for_initial_flowchart env process_text log = (Return code, log')
    /\ startswith code "graph" = true
    /\ code <> "".
Proof.
  assert (Hne : forall code, startswith code "graph" = true -> code <> "").
  { intros [|c r]; [discriminate|]. intros _. discriminate. }
  destruct (str_truthy (llm_api_key env)) eqn:Hkey.
  - rewrite (initial_flowchart_configured _ _ Hkey).
    eexists _, _. split; [reflexivity|].
    assert (H : startswith
                  match client env (initial_request process_text) with
                  | Return (Some content) =>
                      if startswith (strip (sanitize content)) "graph"
                      then sanitize content
                      else "graph TD\nError[LLM did not return valid Mermaid code]"
                  | Return None =>
                      "graph TD\nError[Error calling LLM: 'NoneType' object has no attribute 'strip']"
                  | Raise e =>
                      "graph TD\nError[Error calling LLM: " +:+ str_exn e +:+ "]"
                  end "graph" = true).
    { destruct (client env (initial_request process_text)) as [[content|]|e];
        try reflexivity.
      destruct (startswith (strip (sanitize content)) "graph") eqn:E;
        [|reflexivity].
      now rewrite sanitize_stripped in E. }
    split; [exact H | exact (Hne _ H)].
  - unfold call_llm_for_initial_flowchart. rewrite Hkey.
    eexists _, _. split; [reflexivity|]. split; [reflexivity|discriminate].
Qed.

(** C5: an exception raised by the LLM call does not leave the helpers.
    The synthesizer returns the error diagram whose node carries the
    exception's text, the refiner returns the current diagram followed by
    the annotation that carries it; each made its one call. *)
Theorem llm_exception_absorbed (process_text current : string)
    (instruction : pyval) (log : calls) (e : exn) :
  str_truthy (llm_api_key env) = true ->
  (client env (initial_request process_text) = Raise e ->
   call_llm_for_initial_flowchart env process_text log
   = (Return ("graph TD\nError[Error calling LLM: " +:+ str_exn e +:+ "]"),
      (log ++ [initial_request process_text])%list))
  /\ (let req :=
        refinement_request current (format (py_str env) instruction) in
      client env req = Raise e ->
      call_llm_for_refinement env (PStr current) instruction log
      = (Return (current +:+ "\n%% LLM Error: " +:+ str_exn e),
         (log ++ [req])%list)).
Proof.
  intros Hkey. split.
  - intros He. rewrite (initial_flowchart_configured _ _ Hkey). now rewrite He.
  - intros req He. rewrite (refinement_configured _ _ _ Hkey).
    fold req. now rewrite He.
Qed.

(** C6: without a credential the synthesizer returns the fixed diagram
    that says "API Key Not Configured" and the refiner returns the current
    diagram followed by the credential annotation; neither calls the LLM,
    the record of calls is unchanged. *)
Theorem missing_credential_no_call (process_text current : string)
    (instruction : pyval) (log : calls) :
  str_truthy (llm_api_key env) = false ->
  call_llm_for_initial_flowchart env process_text log
  = (Return "graph TD\nError[LLM API Key Not Configured]", log)
  /\ contains "graph TD\nError[LLM API Key Not Configured]"
              "API Key Not Configured" = true
  /\ call_llm_for_refinement env (PStr current) instruction log
     = (Return (current +:+ "\n%% Error: LLM API Key Not Configured"), log).
Proof.
  intros Hkey.
  unfold call_llm_for_initial_flowchart, call_llm_for_refinement.
  rewrite Hkey. repeat split.
Qed.

End Helpers.

(** ** The view of /generate *)

Section Generate.

Variable env : environment.

(** The direct-text path: the trimmed text is checked, then sent. *)
Lemma generate_flowchart_text t log :
  generate_flowchart env (text_request t) log
  = if String.eqb (strip t) ""
    then (Return (jsonify [("error", "Text input cannot be empty.")] 400), log)
    else
      match call_llm_for_initial_flowchart env (strip t) log with
      | (Return mermaid_code, log') =>
          (Return (jsonify [("mermaid_code", mermaid_code)] 200), log')
      | (Raise _, log') =>
          (Return
             (jsonify
                [("error", "An unexpected error occurred on the server.")] 500),
           log')
      end.
Proof.
  unfold generate_flowchart, text_request, try_except, bind, ret.
  cbn [files_file form_text str_truthy].
  destruct (String.eqb (strip t) ""); cbn [negb str_truthy]; [reflexivity|].
  destruct (call_llm_for_initial_flowchart env (strip t) log) as [[code|e] log'];
    reflexivity.
Qed.

(** The upload path: the extracted text is sent as it is. *)
Lemma generate_flowchart_docx name texts log :
  name <> "" -> endswith (lower name) ".docx" = true ->
  generate_flowchart env (docx_request name texts) log
  = match call_llm_for_initial_flowchart env (join NL texts) log with
    | (Return mermaid_code, log') =>
        (Return (jsonify [("mermaid_code", mermaid_code)] 200), log')
    | (Raise _, log') =>
        (Return
           (jsonify
              [("error", "An unexpected error occurred on the server.")] 500),
         log')
    end.
Proof.
  intros Hname Hext.
  unfold generate_flowchart, docx_request, try_except, bind, ret.
  cbn [files_file form_text filename read].
  destruct (String.eqb_spec name ""); [contradiction|].
  rewrite Hext. cbn [negb andb extract_text_from_docx].
  rewrite full_text_loop. rewrite map_map. cbn [text app].
  rewrite map_id. cbn [str_truthy].
  destruct (call_llm_for_initial_flowchart env (join NL texts) log)
    as [[code|e] log']; reflexivity.
Qed.

(** A text that is empty once trimmed is rejected, and the LLM is not
    called. *)
Lemma generate_blank_text_rejected t log :
  strip t = "" ->
  generate_flowchart env (text_request t) log
  = (Return (jsonify [("error", "Text input cannot be empty.")] 400), log).
Proof. intros H. rewrite generate_flowchart_text. now rewrite H. Qed.

(** C4: with the text "User logs in, then sees dashboard" and the reply
    that is the fenced block of "graph TD", "A-->B", the clean-up leaves
    the two lines of the diagram, the keyword check passes, and the view
    answers 200 with that diagram under "mermaid_code", after one call. *)
Theorem generate_fenced_reply (log : calls) :
  let t := "User logs in, then sees dashboard" in
  str_truthy (llm_api_key env) = true ->
  client env (initial_request t) = Return (Some fenced_graph_AB) ->
  sanitize fenced_graph_AB = graph_AB
  /\ startswith (strip (sanitize fenced_graph_AB)) "graph" = true
  /\ generate_flowchart env (text_request t) log
     = (Return (jsonify [("mermaid_code", graph_AB)] 200),
        (log ++ [initial_request t])%list).
Proof.
  intros t Hkey Hreply.
  assert (Hs : sanitize fenced_graph_AB = graph_AB) by (vm_compute; reflexivity).
  assert (Hg : startswith (strip (sanitize fenced_graph_AB)) "graph" = true)
    by (vm_compute; reflexivity).
  repeat split; auto.
  rewrite generate_flowchart_text.
  change (strip t) with t. change (String.eqb t "") with false.
  cbv iota. rewrite (initial_flowchart_configured _ _ _ Hkey), Hreply, Hg.
  now rewrite Hs.
Qed.

(** C1, the upload path at a document of two empty paragraphs: the
    extracted text is one line feed, empty once trimmed, and yet the view
    does not reject the request: it answers 200 with what the synthesizer
    returns, which has sent that text to the LLM when a credential is
    configured. *)
Theorem generate_blank_docx_reaches_llm (log : calls) :
  extract_text_from_docx (Return [ {| text := "" |}; {| text := "" |} ])
  = Some NL
  /\ strip NL = ""
  /\ exists code : string,
      generate_flowchart env (docx_request "process.docx" [""; ""]) log
      = (Return (jsonify [("mermaid_code", code)] 200),
         if str_truthy (llm_api_key env)
         then (log ++ [initial_request NL])%list
         else log).
Proof.
  split; [reflexivity|]. split; [reflexivity|].
  rewrite generate_flowchart_docx;
    [|discriminate|vm_compute; reflexivity].
  change (join NL [""; ""]) with NL.
  destruct (str_truthy (llm_api_key env)) eqn:Hkey.
  - rewrite (initial_flowchart_configured _ _ _ Hkey). eexists. reflexivity.
  - unfold call_llm_for_initial_flowchart. rewrite Hkey. eexists. reflexivity.
Qed.

End Generate.

(** ** The view of /refine *)

Section Refine.

Variable env : environment.

(** The view on a JSON object that is not empty. *)
Lemma refine_flowchart_object (d : gmap string pyval) log :
  d <> ∅ ->
  refine_flowchart env (json_request d) log
  = let current_mermaid := default PNone (d !! "current_mermaid") in
    let instruction := default PNone (d !! "instruction") in
    if negb (truthy current_mermaid) || negb (truthy instruction)
    then (Return (jsonify missing_fields 400), log)
    else
      match call_llm_for_refinement env current_mermaid instruction log with
      | (Return updated_mermaid, log') =>
          (Return (jsonify [("mermaid_code", updated_mermaid)] 200), log')
      | (Raise _, log') =>
          (Return
             (jsonify
                [("error", "An unexpected error occurred during refinement.")]
                500),
           log')
      end.
Proof.
  intros Hd.
  unfold refine_flowchart, json_request, try_except, bind, lift, ret.
  cbn [get_json truthy get].
  rewrite (bool_decide_eq_false_2 _ Hd). cbn [negb]. cbv zeta.
  destruct (negb (truthy (default PNone (d !! "current_mermaid")))
            || negb (truthy (default PNone (d !! "instruction"))));
    [reflexivity|].
  destruct (call_llm_for_refinement env _ _ log) as [[code|e] log'];
    reflexivity.
Qed.

(** The view on the empty JSON object. *)
Lemma refine_flowchart_empty_object log :
  refine_flowchart env (json_request ∅) log
  = (Return (jsonify [("error", "Invalid request data. Expected JSON.")] 400),
     log).
Proof. reflexivity. Qed.

(** C7, amended: a JSON object that lacks 'current_mermaid' or
    'instruction' is answered 400 without a call to the LLM; the body is
    the "Missing ..." error when the object has some entry, and the
    "Invalid request data. Expected JSON." error when it has none. *)
Theorem refine_missing_field (d : gmap string pyval) (log : calls) :
  d !! "current_mermaid" = None \/ d !! "instruction" = None ->
  refine_flowchart env (json_request d) log
  = (Return
       (jsonify
          (if bool_decide (d = ∅)
           then [("error", "Invalid request data. Expected JSON.")]
           else missing_fields)
          400),
     log).
Proof.
  intros H. destruct (bool_decide_reflect (d = ∅)) as [->|Hd].
  - apply refine_flowchart_empty_object.
  - rewrite (refine_flowchart_object _ _ Hd). cbv zeta.
    destruct H as [H|H]; rewrite H; cbn [default truthy negb orb];
      [reflexivity|now rewrite orb_true_r].
Qed.

(** C10: a JSON object whose 'current_mermaid' or 'instruction' is the
    empty string is answered 400 with the "Missing ..." error, the answer
    given for an absent key, without a call to the LLM. *)
Theorem refine_empty_string_field (d : gmap string pyval) (log : calls) :
  d !! "current_mermaid" = Some (PStr "") \/ d !! "instruction" = Some (PStr "") ->
  refine_flowchart env (json_request d) log
  = (Return (jsonify missing_fields 400), log).
Proof.
  intros H.
  assert (Hd : d <> ∅).
  { intros ->. destruct H as [H|H]; rewrite lookup_empty in H; discriminate. }
  rewrite (refine_flowchart_object _ _ Hd). cbv zeta.
  destruct H as [H|H]; rewrite H; cbn [default truthy negb orb String.eqb];
    [reflexivity|now rewrite orb_true_r].
Qed.

(** C2, on the code: with the current diagram "graph TD", line feed,
    "A-->B" and a reply that does not start with "graph" once sanitized,
    the view answers 200 with the current diagram followed by a backslash,
    the letter n and the annotation; that is not the current diagram
    followed by a line feed and the annotation. *)
Theorem refine_invalid_reply_annotation (content : string) (log : calls) :
  let d : gmap string pyval :=
    <["instruction" := PStr "add a step C after B"]>
      {["current_mermaid" := PStr graph_AB]} in
  let req := refinement_request graph_AB "add a step C after B" in
  str_truthy (llm_api_key env) = true ->
  client env req = Return (Some content) ->
  startswith (sanitize content) "graph" = false ->
  refine_flowchart env (json_request d) log
  = (Return
       (jsonify
          [("mermaid_code",
            graph_AB +:+ "\n%% LLM Error: Invalid refinement response")]
          200),
     (log ++ [req])%list)
  /\ graph_AB +:+ "\n%% LLM Error: Invalid refinement response"
     <> graph_AB +:+ NL +:+ "%% LLM Error: Invalid refinement response".
Proof.
  intros d req Hkey Hreply Hbad. split; [|vm_compute; discriminate].
  assert (Hd : d <> ∅) by (subst d; apply insert_non_empty).
  rewrite (refine_flowchart_object _ _ Hd). cbv zeta.
  change (d !! "current_mermaid") with (Some (PStr graph_AB)).
  change (d !! "instruction") with (Some (PStr "add a step C after B")).
  cbn [default from_option id]. change (truthy (PStr graph_AB)) with true.
  change (truthy (PStr "add a step C after B")) with true.
  cbn [negb orb].
  rewrite (refinement_configured _ _ _ _ Hkey). cbv zeta. cbn [format].
  fold req. rewrite Hreply, sanitize_stripped, Hbad. reflexivity.
Qed.

End Refine.

(** ** The scenarios, on stub environments *)

Section Scenarios.

(** C4 at a stub that holds a credential and replies with the fenced
    block. *)
Lemma generate_fenced_reply_witness :
  let env := stub (Some "sk-test") (Return (Some fenced_graph_AB)) in
  let t := "User logs in, then sees dashboard" in
  str_truthy (llm_api_key env) = true
  /\ client env (initial_request t) = Return (Some fenced_graph_AB)
  /\ generate_flowchart env (text_request t) []
     = (Return (jsonify [("mermaid_code", graph_AB)] 200),
        [initial_request t]).
Proof.
  intros env t. split; [reflexivity|]. split; [reflexivity|].
  exact (proj2 (proj2 (generate_fenced_reply env [] eq_refl eq_refl))).
Defined.

(** C5 at a stub whose call raises a timeout. *)
Lemma llm_exception_absorbed_witness :
  let env := stub (Some "sk-test") (Raise (Exception "Request timed out.")) in
  str_truthy (llm_api_key env) = true
  /\ call_llm_for_initial_flowchart env "Order process: receive, ship, invoice" []
     = (Return "graph TD\nError[Error calling LLM: Request timed out.]",
        [initial_request "Order process: receive, ship, invoice"])
  /\ call_llm_for_refinement env (PStr graph_AB)
       (PStr "add a step C after B") []
     = (Return (graph_AB +:+ "\n%% LLM Error: Request timed out."),
        [refinement_request graph_AB "add a step C after B"]).
Proof.
  intros env. split; [reflexivity|].
  pose proof (llm_exception_absorbed env
                "Order process: receive, ship, invoice" graph_AB
                (PStr "add a step C after B") []
                (Exception "Request timed out.") eq_refl) as [H1 H2].
  split; [exact (H1 eq_refl) | exact (H2 eq_refl)].
Defined.

(** C6 at a stub without a credential. *)
Lemma missing_credential_no_call_witness :
  let env := stub None (Return (Some fenced_graph_AB)) in
  str_truthy (llm_api_key env) = false
  /\ call_llm_for_initial_flowchart env "Order process: receive, ship, invoice" []
     = (Return "graph TD\nError[LLM API Key Not Configured]", [])
  /\ call_llm_for_refinement env (PStr graph_AB)
       (PStr "add a step C after B") []
     = (Return (graph_AB +:+ "\n%% Error: LLM API Key Not Configured"), []).
Proof.
  intros env. split; [reflexivity|].
  pose proof (missing_credential_no_call env
                "Order process: receive, ship, invoice" graph_AB
                (PStr "add a step C after B") [] eq_refl) as (H1 & _ & H2).
  split; [exact H1 | exact H2].
Defined.

(** C7, as stated, fails: the empty object lacks 'instruction' and is
    answered with the "Invalid request data. Expected JSON." error, which
    is not the "Missing ..." error. *)
Lemma refine_empty_object_invalid :
  let env := stub (Some "sk-test") (Return (Some fenced_graph_AB)) in
  (∅ : gmap string pyval) !! "instruction" = None
  /\ refine_flowchart env (json_request ∅) []
     = (Return
          (jsonify [("error", "Invalid request data. Expected JSON.")] 400),
        [])
  /\ refine_flowchart env (json_request ∅) []
     <> (Return (jsonify missing_fields 400), []).
Proof. intros env. repeat split. discriminate. Qed.

(** C7, amended, at an object that holds the diagram only. *)
Lemma refine_missing_field_witness :
  let env := stub (Some "sk-test") (Return (Some fenced_graph_AB)) in
  let d : gmap string pyval := {["current_mermaid" := PStr graph_AB]} in
  d !! "instruction" = None
  /\ refine_flowchart env (json_request d) []
     = (Return (jsonify missing_fields 400), []).
Proof.
  intros env d. split; [reflexivity|].
  exact (refine_missing_field env d [] (or_intror eq_refl)).
Defined.

(** C10 at an object whose instruction is the empty string. *)
Lemma refine_empty_string_field_witness :
  let env := stub (Some "sk-test") (Return (Some fenced_graph_AB)) in
  let d : gmap string pyval :=
    <["instruction" := PStr ""]> {["current_mermaid" := PStr graph_AB]} in
  d !! "instruction" = Some (PStr "")
  /\ refine_flowchart env (json_request d) []
     = (Return (jsonify missing_fields 400), []).
Proof.
  intros env d. split; [reflexivity|].
  exact (refine_empty_string_field env d [] (or_intror eq_refl)).
Defined.

(** C2 at a stub that replies with an apology. *)
Lemma refine_invalid_reply_annotation_witness :
  let env :=
    stub (Some "sk-test") (Return (Some "Sorry, I cannot change the diagram.")) in
  let d : gmap string pyval :=
    <["instruction" := PStr "add a step C after B"]>
      {["current_mermaid" := PStr graph_AB]} in
  startswith (sanitize "Sorry, I cannot change the diagram.") "graph" = false
  /\ refine_flowchart env (json_request d) []
     = (Return
          (jsonify
             [("mermaid_code",
               graph_AB +:+ "\n%% LLM Error: Invalid refinement response")]
             200),
        [refinement_request graph_AB "add a step C after B"]).
Proof.
  intros env d. split; [reflexivity|].
  exact (proj1 (refine_invalid_reply_annotation env
                  "Sorry, I cannot change the diagram." []
                  eq_refl eq_refl eq_refl)).
Defined.

End Scenarios.

(** * Further properties *)

(** ** Concatenation, blank texts and slices *)

Section AppendFacts.

Lemma app_cons c (x y : string) : String c x +:+ y = String c (x +:+ y).
Proof. reflexivity. Qed.

Lemma app_empty_l (x : string) : "" +:+ x = x.
Proof. reflexivity. Qed.

Lemma app_assoc_str (x y z : string) : (x +:+ y) +:+ z = x +:+ y +:+ z.
Proof.
  induction x as [|c x IH]; [reflexivity|]. rewrite !app_cons. now f_equal.
Qed.

Lemma app_empty_r (x : string) : x +:+ "" = x.
Proof.
  induction x as [|c x IH]; [reflexivity|]. rewrite app_cons. now f_equal.
Qed.

Lemma app_length_str (x y : string) :
  String.length (x +:+ y) = String.length x + String.length y.
Proof.
  induction x as [|c x IH]; [reflexivity|]. rewrite app_cons. simpl.
  now rewrite IH.
Qed.

Lemma app_eq_empty (x y : string) : x +:+ y = "" -> x = "" /\ y = "".
Proof. destruct x; [now rewrite app_empty_l|]. rewrite app_cons. discriminate. Qed.

(** [lstrip w = ""] says that [w] is blank: white space only. *)
Lemma blank_cons c r :
  lstrip (String c r) = "" <-> isspace c = true /\ lstrip r = "".
Proof.
  simpl. destruct (isspace c); split; try tauto; try discriminate.
  intros [H _]. discriminate.
Qed.

Lemma blank_app x y :
  lstrip (x +:+ y) = "" <-> lstrip x = "" /\ lstrip y = "".
Proof.
  induction x as [|c x IH].
  - rewrite app_empty_l. simpl. tauto.
  - rewrite app_cons, !blank_cons, IH. tauto.
Qed.

Lemma lstrip_app_blank w y : lstrip w = "" -> lstrip (w +:+ y) = lstrip y.
Proof.
  induction w as [|c w IH]; [reflexivity|].
  intros H. apply blank_cons in H as [Hc Hw]. rewrite app_cons. simpl.
  rewrite Hc. auto.
Qed.

Lemma rstrip_blank w : lstrip w = "" -> rstrip w = "".
Proof.
  induction w as [|c w IH]; [reflexivity|].
  intros H. apply blank_cons in H as [Hc Hw]. simpl.
  now rewrite (IH Hw), Hc.
Qed.

Lemma rstrip_app_blank y w : lstrip w = "" -> rstrip (y +:+ w) = rstrip y.
Proof.
  intros Hw. induction y as [|c y IH].
  - rewrite app_empty_l. now apply rstrip_blank.
  - rewrite app_cons. simpl. now rewrite IH.
Qed.

(** What [lstrip] leaves is empty or starts with a character that is not
    white space. *)
Lemma lstrip_head s :
  match lstrip s with
  | EmptyString => True
  | String c _ => isspace c = false
  end.
Proof.
  induction s as [|c r IH]; simpl; [exact I|].
  destruct (isspace c) eqn:E; [exact IH|exact E].
Qed.

Lemma rstrip_nonblank c r : isspace c = false -> rstrip (String c r) <> "".
Proof. intros E. simpl. destruct (rstrip r); [rewrite E|]; discriminate. Qed.

Lemma strip_blank_iff w : strip w = "" <-> lstrip w = "".
Proof.
  unfold strip. split; [|now intros ->].
  pose proof (lstrip_head w) as Hh. destruct (lstrip w) as [|c r]; [reflexivity|].
  intros H. now apply rstrip_nonblank in H.
Qed.

Lemma strip_fix_l x : strip x = x -> lstrip x = x.
Proof.
  intros H. rewrite <- H at 1. unfold strip.
  rewrite (lstrip_rstrip (lstrip x) (lstrip_idem x)). exact H.
Qed.

Lemma strip_fix_r x : strip x = x -> rstrip x = x.
Proof. intros H. rewrite <- H at 1. unfold strip. rewrite rstrip_idem. exact H. Qed.

Lemma lstrip_fix_app x y : lstrip x = x -> x <> "" -> lstrip (x +:+ y) = x +:+ y.
Proof.
  destruct x as [|c r]; [congruence|]. intros H _.
  pose proof (lstrip_head (String c r)) as Hh. rewrite H in Hh.
  rewrite app_cons. simpl. now rewrite Hh.
Qed.

Lemma rstrip_fix_app x y : rstrip y = y -> y <> "" -> rstrip (x +:+ y) = x +:+ y.
Proof.
  intros H Hy. induction x as [|c x IH]; [exact H|].
  rewrite app_cons.
  change (rstrip (String c (x +:+ y))) with
    (match rstrip (x +:+ y) with
     | EmptyString => if isspace c then EmptyString else String c EmptyString
     | String a b => String c (String a b)
     end).
  rewrite IH. destruct (x +:+ y) eqn:E; [|reflexivity].
  apply app_eq_empty in E as [_ E]. contradiction.
Qed.

(** White space around a trimmed text is what [strip] removes. *)
Lemma strip_pad w1 x w2 :
  lstrip w1 = "" -> lstrip w2 = "" -> strip x = x ->
  strip (w1 +:+ x +:+ w2) = x.
Proof.
  intros H1 H2 Hx. unfold strip. rewrite (lstrip_app_blank _ _ H1).
  destruct (String.eqb_spec x "") as [->|Hne].
  - rewrite app_empty_l. now rewrite H2.
  - rewrite lstrip_fix_app by auto using strip_fix_l.
    rewrite (rstrip_app_blank _ _ H2). now apply strip_fix_r.
Qed.

Lemma startswith_app p r : startswith (p +:+ r) p = true.
Proof.
  induction p as [|c p IH]; [now destruct r|]. rewrite app_cons. simpl.
  now rewrite Ascii.eqb_refl, IH.
Qed.

Lemma slice_from_app p r : slice_from (String.length p) (p +:+ r) = r.
Proof. induction p as [|c p IH]; [reflexivity|]. rewrite app_cons. simpl. auto. Qed.

Lemma slice_to_app x y : slice_to (String.length x) (x +:+ y) = x.
Proof.
  induction x as [|c x IH]; [rewrite app_empty_l; now destruct y|].
  rewrite app_cons. simpl. now rewrite IH.
Qed.

Lemma slice_split n s : s = slice_to n s +:+ slice_from n s.
Proof.
  revert s. induction n as [|n IH]; intros [|c r]; try reflexivity.
  simpl. rewrite app_cons. now rewrite <- IH.
Qed.

Lemma endswith_app x p : endswith (x +:+ p) p = true.
Proof.
  unfold endswith. rewrite app_length_str.
  replace (String.length x + String.length p - String.length p)
    with (String.length x) by lia.
  rewrite slice_from_app, String.eqb_refl.
  apply andb_true_intro. split; [apply Nat.leb_le; lia|reflexivity].
Qed.

Lemma slice_to_neg_app x p : slice_to_neg (String.length p) (x +:+ p) = x.
Proof.
  unfold slice_to_neg. rewrite app_length_str.
  replace (String.length x + String.length p - String.length p)
    with (String.length x) by lia.
  apply slice_to_app.
Qed.

End AppendFacts.

(** ** More on sanitization *)

Section SanitizeMore.

Local Abbreviation part a s :=
  (exists pre post : string, s = pre +:+ a +:+ post).

Lemma part_refl s : part s s.
Proof. exists "", "". now rewrite app_empty_l, app_empty_r. Qed.

Lemma part_trans a b c : part a b -> part b c -> part a c.
Proof.
  intros (p1 & q1 & ->) (p2 & q2 & ->). exists (p2 +:+ p1), (q1 +:+ q2).
  now rewrite !app_assoc_str.
Qed.

Lemma lstrip_part s : part (lstrip s) s.
Proof.
  induction s as [|c r IH]; simpl; [apply part_refl|].
  destruct (isspace c); [|apply part_refl].
  destruct IH as (p & q & H). exists (String c p), q.
  rewrite app_cons. now f_equal.
Qed.

Lemma rstrip_suffix s : exists post, s = rstrip s +:+ post.
Proof.
  induction s as [|c r [post IH]]; [now exists ""|].
  simpl. destruct (rstrip r) as [|a b] eqn:E.
  - rewrite app_empty_l in IH. destruct (isspace c).
    + now exists (String c r).
    + exists r. now rewrite app_cons, app_empty_l.
  - exists post. rewrite app_cons. now f_equal.
Qed.

Lemma strip_part s : part (strip s) s.
Proof.
  apply part_trans with (lstrip s); [|apply lstrip_part].
  destruct (rstrip_suffix (lstrip s)) as [post H]. exists "", post.
  now rewrite app_empty_l.
Qed.

Lemma slice_from_part n s : part (slice_from n s) s.
Proof. exists (slice_to n s), "". rewrite app_empty_r. apply slice_split. Qed.

Lemma slice_to_part n s : part (slice_to n s) s.
Proof. exists "", (slice_from n s). rewrite app_empty_l. apply slice_split. Qed.

(** X1: a reply that is one fenced block, with any white space before the
    opening marker, after it, before the closing marker and after it, is
    sanitized to the trimmed text between the markers. *)
Theorem sanitize_fenced_block (w1 w2 w3 w4 body : string) :
  strip w1 = "" -> strip w2 = "" -> strip w3 = "" -> strip w4 = "" ->
  strip body = body ->
  sanitize (w1 +:+ "```mermaid" +:+ w2 +:+ body +:+ w3 +:+ "```" +:+ w4)
  = body.
Proof.
  rewrite !strip_blank_iff. intros H1 H2 H3 H4 Hb.
  set (inner := w2 +:+ body +:+ w3 +:+ "```").
  set (x1 := "```mermaid" +:+ inner).
  replace (w1 +:+ "```mermaid" +:+ w2 +:+ body +:+ w3 +:+ "```" +:+ w4)
    with (w1 +:+ x1 +:+ w4)
    by (subst x1 inner; now rewrite !app_assoc_str).
  assert (Hx1 : strip x1 = x1).
  { unfold strip. replace (lstrip x1) with x1 by reflexivity.
    subst x1 inner. rewrite <- !app_assoc_str.
    apply rstrip_fix_app; [reflexivity|discriminate]. }
  unfold sanitize. rewrite (strip_pad _ _ _ H1 H4 Hx1).
  subst x1. rewrite startswith_app, slice_from_app.
  destruct (String.eqb_spec body "") as [->|Hne].
  - assert (Hin : strip inner = "```").
    { subst inner. rewrite app_empty_l. unfold strip.
      now rewrite (lstrip_app_blank _ _ H2), (lstrip_app_blank _ _ H3). }
    rewrite Hin. reflexivity.
  - assert (Hin : strip inner = (body +:+ w3) +:+ "```").
    { subst inner. rewrite <- (app_empty_r (body +:+ w3 +:+ "```")).
      rewrite <- (app_assoc_str body w3 "```").
      apply strip_pad; [assumption|reflexivity|].
      unfold strip. rewrite app_assoc_str.
      rewrite lstrip_fix_app by auto using strip_fix_l.
      rewrite <- app_assoc_str.
      apply rstrip_fix_app; [reflexivity|discriminate]. }
    rewrite Hin, endswith_app, slice_to_neg_app.
    rewrite <- (app_empty_l (body +:+ w3)).
    apply strip_pad; auto.
Qed.

(** X2: sanitization only removes text: what it returns is a contiguous
    part of the reply. *)
Theorem sanitize_part_of_reply (content : string) :
  exists pre post : string, content = pre +:+ sanitize content +:+ post.
Proof.
  unfold sanitize.
  assert (H1 : part
                 (if startswith (strip content) "```mermaid"
                  then strip (slice_from (String.length "```mermaid")
                                         (strip content))
                  else strip content) content).
  { destruct (startswith (strip content) "```mermaid"); [|apply strip_part].
    eapply part_trans; [apply strip_part|].
    eapply part_trans; [apply slice_from_part|apply strip_part]. }
  set (m := if startswith (strip content) "```mermaid" then _ else _) in *.
  destruct (endswith m "```"); [|exact H1].
  eapply part_trans; [apply strip_part|].
  eapply part_trans; [apply slice_to_part|exact H1].
Qed.

(** X3: the sanitized text neither starts nor ends with a white-space
    character. *)
Theorem sanitize_no_outer_space (content : string) :
  (forall c r, sanitize content = String c r -> isspace c = false)
  /\ (forall r c, sanitize content = r +:+ String c "" -> isspace c = false).
Proof.
  pose proof (sanitize_stripped content) as Hs. split.
  - intros c r E. apply strip_fix_l in Hs.
    pose proof (lstrip_head (sanitize content)) as Hh.
    now rewrite Hs, E in Hh.
  - intros r c E. apply strip_fix_r in Hs. rewrite E in Hs.
    destruct (isspace c) eqn:Ec; [|reflexivity].
    rewrite rstrip_app_blank in Hs by (simpl; now rewrite Ec).
    pose proof (rstrip_length r) as L. rewrite Hs, app_length_str in L.
    simpl in L. lia.
Qed.

End SanitizeMore.

(** ** More on document extraction *)

Section ExtractionMore.

Lemma join_blank (l : list string) :
  lstrip (join NL l) = "" <-> Forall (fun t => lstrip t = "") l.
Proof.
  induction l as [|x [|y r] IH].
  - simpl. split; [constructor|reflexivity].
  - simpl. split; [intros H; repeat constructor; exact H|].
    intros H. now inversion H.
  - change (join NL (x :: y :: r)) with (x +:+ NL +:+ join NL (y :: r)).
    rewrite !blank_app, IH. split.
    + intros (Hx & _ & Hr). now constructor.
    + intros H. inversion H; subst. repeat split; assumption.
Qed.

(** X4: the text extracted from a readable document is blank (empty once
    trimmed) exactly when every paragraph is blank. *)
Theorem extract_blank_iff (paragraphs : list paragraph) :
  exists t : string,
    extract_text_from_docx (Return paragraphs) = Some t
    /\ (strip t = "" <-> Forall (fun p => strip (text p) = "") paragraphs).
Proof.
  exists (join NL (map text paragraphs)). split.
  - unfold extract_text_from_docx. now rewrite full_text_loop.
  - rewrite strip_blank_iff, join_blank, Forall_map.
    apply Forall_iff. intros p. simpl. now rewrite strip_blank_iff.
Qed.

End ExtractionMore.

(** ** More on the view of /generate *)

Section GenerateMore.

Variable env : environment.


(** The upload path, for any file name and any outcome of reading the
    document. *)
Lemma generate_flowchart_upload name rd ft log :
  generate_flowchart env
    {| files_file := Some {| filename := name; read := rd |};
       form_text := ft |} log
  = if String.eqb name "" then
      (Return (jsonify [("error", "No file selected.")] 400), log)
    else if endswith (lower name) ".docx" then
      match rd with
      | Return paragraphs =>
          match call_llm_for_initial_flowchart env
                  (join NL (map text paragraphs)) log with
          | (Return mermaid_code, log') =>
              (Return (jsonify [("mermaid_code", mermaid_code)] 200), log')
          | (Raise _, log') =>
              (Return
                 (jsonify
                    [("error", "An unexpected error occurred on the server.")]
                    500),
               log')
          end
      | Raise _ =>
          (Return
             (jsonify [("error", "Error extracting text from DOCX file.")] 400),
           log)
      end
    else
      (Return
         (jsonify
            [("error", "Invalid file type. Please upload a .docx file.")] 400),
       log).
Proof.
  unfold generate_flowchart, try_except, bind, ret.
  cbn [files_file form_text filename read].
  destruct (String.eqb name ""); [reflexivity|]. cbn [negb andb].
  destruct (endswith (lower name) ".docx"); [|reflexivity].
  destruct rd as [paragraphs|e]; [|reflexivity].
  cbn [extract_text_from_docx]. rewrite full_text_loop. cbn [app str_truthy].
  destruct (call_llm_for_initial_flowchart env _ log) as [[code|e] log'];
    reflexivity.
Qed.

Lemma lower_char_idem c : lower_char (lower_char c) = lower_char c.
Proof. destruct c as [[] [] [] [] [] [] [] []]; reflexivity. Qed.

Lemma lower_idem s : lower (lower s) = lower s.
Proof.
  induction s as [|c r IH]; simpl; [reflexivity|].
  now rewrite lower_char_idem, IH.
Qed.

Lemma lower_eqb_empty s : String.eqb (lower s) "" = String.eqb s "".
Proof. now destruct s. Qed.

(** X5: white space around the text field does not matter: the view
    answers the text as it answers the trimmed text. *)
Theorem generate_text_trimmed (t : string) (log : calls) :
  generate_flowchart env {| files_file := None; form_text := Some t |} log
  = generate_flowchart env
      {| files_file := None; form_text := Some (strip t) |} log.
Proof.
  change {| files_file := None; form_text := Some t |} with (text_request t).
  change {| files_file := None; form_text := Some (strip t) |}
    with (text_request (strip t)).
  rewrite !generate_flowchart_text. now rewrite strip_idem.
Qed.

(** X6: an upload governs. When the request carries a part under 'file',
    the 'text' field is never read: the answer is the same with any text
    or none, also when the upload is refused. *)
Theorem generate_file_governs (file : FileStorage)
    (text1 text2 : option string) (log : calls) :
  generate_flowchart env {| files_file := Some file; form_text := text1 |} log
  = generate_flowchart env {| files_file := Some file; form_text := text2 |} log.
Proof. destruct file as [name rd]. now rewrite !generate_flowchart_upload. Qed.

(** X7: an upload whose name does not end with ".docx", letter case
    ignored, is refused with 400 "Invalid file type. ..." whatever its
    content and whatever the text field; the LLM is not called. *)
Theorem generate_wrong_extension (name : string)
    (rd : result (list paragraph)) (ft : option string) (log : calls) :
  name <> "" ->
  endswith (lower name) ".docx" = false ->
  generate_flowchart env
    {| files_file := Some {| filename := name; read := rd |};
       form_text := ft |} log
  = (Return
       (jsonify
          [("error", "Invalid file type. Please upload a .docx file.")] 400),
     log).
Proof.
  intros Hname Hext. rewrite generate_flowchart_upload, Hext.
  now destruct (String.eqb_spec name "").
Qed.

(** X8: the letter case of the file name does not matter: the view
    answers an upload as it answers the same upload under the lower-cased
    name. *)
Theorem generate_filename_case (name : string)
    (rd : result (list paragraph)) (ft : option string) (log : calls) :
  generate_flowchart env
    {| files_file := Some {| filename := name; read := rd |};
       form_text := ft |} log
  = generate_flowchart env
      {| files_file := Some {| filename := lower name; read := rd |};
         form_text := ft |} log.
Proof.
  rewrite !generate_flowchart_upload. now rewrite lower_idem, lower_eqb_empty.
Qed.

(** X9: a .docx that python-docx cannot read is refused with 400 "Error
    extracting text from DOCX file." for every exception: its text does
    not reach the answer, and the LLM is not called. *)
Theorem generate_unreadable_docx (name : string) (e : exn)
    (ft : option string) (log : calls) :
  name <> "" ->
  endswith (lower name) ".docx" = true ->
  generate_flowchart env
    {| files_file := Some {| filename := name; read := Raise e |};
       form_text := ft |} log
  = (Return
       (jsonify [("error", "Error extracting text from DOCX file.")] 400),
     log).
Proof.
  intros Hname Hext. rewrite generate_flowchart_upload, Hext.
  now destruct (String.eqb_spec name "").
Qed.


(** X11: with a credential and a reply that has a content, the view
    answers a text that is not blank with 200 and, under "mermaid_code",
    the sanitized reply when it starts with "graph", else the fixed error
    diagram: the rejected reply does not reach the user. One call is
    made. *)
Theorem generate_text_reply (t content : string) (log : calls) :
  str_truthy (llm_api_key env) = true ->
  strip t <> "" ->
  client env (initial_request (strip t)) = Return (Some content) ->
  generate_flowchart env {| files_file := None; form_text := Some t |} log
  = (Return
       (jsonify
          [("mermaid_code",
            if startswith (sanitize content) "graph"
            then sanitize content
            else "graph TD\nError[LLM did not return valid Mermaid code]")]
          200),
     (log ++ [initial_request (strip t)])%list).
Proof.
  intros Hkey Ht Hreply.
  change {| files_file := None; form_text := Some t |} with (text_request t).
  rewrite generate_flowchart_text.
  destruct (String.eqb_spec (strip t) ""); [contradiction|].
  rewrite (initial_flowchart_configured _ _ _ Hkey), Hreply.
  now rewrite sanitize_stripped.
Qed.

End GenerateMore.

(** ** More on the view of /refine *)

Section RefineMore.

Variable env : environment.

Lemma non_empty_lookup (d : gmap string pyval) k v : d !! k = Some v -> d <> ∅.
Proof. intros H ->. rewrite lookup_empty in H. discriminate. Qed.

Lemma add_str_non_str v t :
  (forall s, v <> PStr s) -> exists e, add_str v t = Raise e.
Proof.
  intros H. destruct v; try (eexists; reflexivity).
  exfalso. now apply (H s).
Qed.

(** On a [str] the refiner always returns: a text that starts with
    "graph", or the current diagram followed by an annotation. *)
Lemma refinement_outcome current instruction log :
  exists code : string,
    call_llm_for_refinement env (PStr current) instruction log
    = (Return code,
       if str_truthy (llm_api_key env)
       then (log ++ [refinement_request current
                       (format (py_str env) instruction)])%list
       else log)
    /\ (startswith code "graph" = true
        \/ exists note, code = current +:+ "\n%% " +:+ note).
Proof.
  destruct (str_truthy (llm_api_key env)) eqn:Hkey.
  - rewrite (refinement_configured _ _ _ _ Hkey). cbv zeta.
    eexists. split; [reflexivity|].
    destruct (client env _) as [[content|]|e].
    + destruct (startswith (strip (sanitize content)) "graph") eqn:E.
      * left. now rewrite sanitize_stripped in E.
      * right. now exists "LLM Error: Invalid refinement response".
    + right. now exists "LLM Error: 'NoneType' object has no attribute 'strip'".
    + right. now exists ("LLM Error: " +:+ str_exn e).
  - unfold call_llm_for_refinement. rewrite Hkey. cbn [negb add_str lift].
    eexists. split; [reflexivity|].
    right. now exists "Error: LLM API Key Not Configured".
Qed.

(** Whatever the values, the refiner makes one call with a credential and
    none without. *)
Lemma refinement_calls v instruction log :
  snd (call_llm_for_refinement env v instruction log)
  = if str_truthy (llm_api_key env)
    then (log ++ [refinement_request (format (py_str env) v)
                    (format (py_str env) instruction)])%list
    else log.
Proof.
  unfold call_llm_for_refinement.
  destruct (str_truthy (llm_api_key env)); cbn [negb].
  - unfold try_except, bind, create, lift, ret.
    destruct (client env _) as [[content|]|e]; cbn [content_str].
    + destruct (startswith (strip (sanitize content)) "graph"); cbn [negb];
        [reflexivity|].
      destruct (add_str v "\n%% LLM Error: Invalid refinement response");
        reflexivity.
    + reflexivity.
    + reflexivity.
  - reflexivity.
Qed.

(** X12: a body that is not a JSON object never reaches the LLM. When
    [get_json] raises, or gives an array, a string, a number or true, the
    answer is 500; when it gives null, false, zero, an empty string or an
    empty array, the answer is 400 "Invalid request data. Expected
    JSON.". *)
Theorem refine_not_an_object (request : refine_request) (log : calls) :
  (forall d, get_json request <> Return (PDict d)) ->
  refine_flowchart env request log
  = (Return
       match get_json request with
       | Return data =>
           if truthy data
           then jsonify
                  [("error", "An unexpected error occurred during refinement.")]
                  500
           else jsonify [("error", "Invalid request data. Expected JSON.")] 400
       | Raise _ =>
           jsonify
             [("error", "An unexpected error occurred during refinement.")] 500
       end,
     log).
Proof.
  intros H. destruct request as [[data|e]]; cbn [get_json] in *;
    [|reflexivity].
  unfold refine_flowchart, try_except, bind, lift, ret. cbn [get_json].
  destruct data; try (exfalso; eapply H; reflexivity);
    destruct (truthy _); reflexivity.
Qed.

(** X13: a field that is present with a false value, which is null,
    false, zero, an empty string, an empty array or an empty object, is
    answered like an absent one: 400 with the "Missing ..." error, and no
    call to the LLM. *)
Theorem refine_falsy_field (d : gmap string pyval) (v : pyval) (log : calls) :
  d !! "current_mermaid" = Some v \/ d !! "instruction" = Some v ->
  truthy v = false ->
  refine_flowchart env (json_request d) log
  = (Return (jsonify missing_fields 400), log).
Proof.
  intros H Hv.
  assert (Hd : d <> ∅) by (destruct H as [H|H]; eapply non_empty_lookup; eauto).
  rewrite (refine_flowchart_object _ _ _ Hd). cbv zeta.
  destruct H as [H|H]; rewrite H; cbn [default from_option id]; rewrite Hv;
    cbn [negb orb]; [reflexivity|now rewrite orb_true_r].
Qed.

(** X14: with a credential, two fields that are non-empty strings and a
    reply that has a content, the view answers 200 and, under
    "mermaid_code", the sanitized reply when it starts with "graph", else
    the current diagram followed by the annotation of an invalid reply.
    One call is made, with the two strings in its prompt. *)
Theorem refine_string_reply (d : gmap string pyval)
    (current instruction content : string) (log : calls) :
  str_truthy (llm_api_key env) = true ->
  d !! "current_mermaid" = Some (PStr current) -> current <> "" ->
  d !! "instruction" = Some (PStr instruction) -> instruction <> "" ->
  client env (refinement_request current instruction) = Return (Some content) ->
  refine_flowchart env (json_request d) log
  = (Return
       (jsonify
          [("mermaid_code",
            if startswith (sanitize content) "graph"
            then sanitize content
            else current +:+ "\n%% LLM Error: Invalid refinement response")]
          200),
     (log ++ [refinement_request current instruction])%list).
Proof.
  intros Hkey Hc Hcne Hi Hine Hreply.
  rewrite (refine_flowchart_object _ _ _ (non_empty_lookup _ _ _ Hc)).
  cbv zeta. rewrite Hc, Hi. cbn [default from_option id truthy].
  destruct (String.eqb_spec current ""); [contradiction|].
  destruct (String.eqb_spec instruction ""); [contradiction|].
  cbn [negb orb].
  rewrite (refinement_configured _ _ _ _ Hkey). cbv zeta. cbn [format].
  now rewrite Hreply, sanitize_stripped.
Qed.

(** X15: refinement does not destroy the diagram. With two fields that
    are non-empty strings the view answers 200 whatever the credential
    and whatever the LLM does, and the text under "mermaid_code" starts
    with "graph" or is the current diagram followed by a backslash, the
    letter n, "%% " and a note. *)
Theorem refine_keeps_diagram (d : gmap string pyval)
    (current instruction : string) (log : calls) :
  d !! "current_mermaid" = Some (PStr current) -> current <> "" ->
  d !! "instruction" = Some (PStr instruction) -> instruction <> "" ->
  exists code : string,
    refine_flowchart env (json_request d) log
    = (Return (jsonify [("mermaid_code", code)] 200),
       if str_truthy (llm_api_key env)
       then (log ++ [refinement_request current instruction])%list
       else log)
    /\ (startswith code "graph" = true
        \/ exists note, code = current +:+ "\n%% " +:+ note).
Proof.
  intros Hc Hcne Hi Hine.
  rewrite (refine_flowchart_object _ _ _ (non_empty_lookup _ _ _ Hc)).
  cbv zeta. rewrite Hc, Hi. cbn [default from_option id truthy].
  destruct (String.eqb_spec current ""); [contradiction|].
  destruct (String.eqb_spec instruction ""); [contradiction|].
  cbn [negb orb].
  destruct (refinement_outcome current (PStr instruction) log)
    as (code & -> & Hcode).
  exists code. split; [reflexivity|exact Hcode].
Qed.

(** X16: a 'current_mermaid' that is true but not a string (a number, an
    array, an object, true) cannot be annotated: the view answers 500,
    without a call when no credential is configured and after the call
    otherwise, unless the reply is a valid diagram, which is answered
    with 200. *)
Theorem refine_non_string_diagram (d : gmap string pyval)
    (v instruction : pyval) (log : calls) :
  d !! "current_mermaid" = Some v -> (forall s, v <> PStr s) ->
  truthy v = true ->
  d !! "instruction" = Some instruction -> truthy instruction = true ->
  let req := refinement_request (format (py_str env) v)
                                (format (py_str env) instruction) in
  let failed :=
    jsonify [("error", "An unexpected error occurred during refinement.")]
            500 in
  refine_flowchart env (json_request d) log
  = if str_truthy (llm_api_key env) then
      (Return
         match client env req with
         | Return (Some content) =>
             if startswith (sanitize content) "graph"
             then jsonify [("mermaid_code", sanitize content)] 200
             else failed
         | _ => failed
         end,
       (log ++ [req])%list)
    else (Return failed, log).
Proof.
  intros Hc Hv Htv Hi Hti req failed.
  rewrite (refine_flowchart_object _ _ _ (non_empty_lookup _ _ _ Hc)).
  cbv zeta. rewrite Hc, Hi. cbn [default from_option id].
  rewrite Htv, Hti. cbn [negb orb].
  unfold call_llm_for_refinement.
  destruct (str_truthy (llm_api_key env)); cbn [negb].
  - unfold try_except, bind, create, lift, ret. fold req.
    destruct (client env req) as [[content|]|e]; cbn [content_str].
    + rewrite sanitize_stripped.
      destruct (startswith (sanitize content) "graph"); cbn [negb];
        [reflexivity|].
      destruct (add_str_non_str v "\n%% LLM Error: Invalid refinement response" Hv)
        as [e1 ->].
      now destruct (add_str_non_str v ("\n%% LLM Error: " +:+ str_exn e1) Hv)
        as [e2 ->].
    + now destruct (add_str_non_str v
             ("\n%% LLM Error: "
              +:+ str_exn (Exception "'NoneType' object has no attribute 'strip'"))
             Hv) as [e2 ->].
    + now destruct (add_str_non_str v ("\n%% LLM Error: " +:+ str_exn e) Hv)
        as [e2 ->].
  - unfold lift.
    now destruct (add_str_non_str v "\n%% Error: LLM API Key Not Configured" Hv)
      as [e ->].
Qed.

(** X17: every request is answered, with status 200, 400 or 500; at most
    one call to the LLM is made, the calls recorded before are kept, and
    an answer 400 comes without a call. *)
Theorem refine_flowchart_answer (request : refine_request) (log : calls) :
  exists (resp : response) (log' : calls),
    refine_flowchart env request log = (Return resp, log')
    /\ (status resp = 200%Z \/ status resp = 400%Z \/ status resp = 500%Z)
    /\ (status resp = 400%Z -> log' = log)
    /\ (log' = log \/ exists req, log' = (log ++ [req])%list).
Proof.
  destruct request as [[data|e]].
  2:{ eexists _, _. split; [reflexivity|]. cbn. split; [tauto|]. split; auto. }
  destruct data as [| | | | |l|d].
  1-6: rewrite refine_not_an_object by (intros d; cbn; discriminate);
       cbn [get_json];
       match goal with |- context [truthy ?x] => destruct (truthy x) end;
       eexists _, _; (split; [reflexivity|]); cbn;
       (split; [tauto|]); split; auto.
  change {| get_json := Return (PDict d) |} with (json_request d).
  destruct (decide (d = ∅)) as [->|Hd].
  - rewrite refine_flowchart_empty_object.
    eexists _, _. split; [reflexivity|]. cbn. split; [tauto|]. split; auto.
  - rewrite (refine_flowchart_object _ _ _ Hd). cbv zeta.
    destruct (negb _ || negb _).
    + eexists _, _. split; [reflexivity|]. cbn. split; [tauto|]. split; auto.
    + pose proof (refinement_calls (default PNone (d !! "current_mermaid"))
                    (default PNone (d !! "instruction")) log) as Hcalls.
      destruct (call_llm_for_refinement env _ _ log) as [[code|e] log'].
      * eexists _, _. split; [reflexivity|]. cbn in *.
        split; [tauto|]. split; [discriminate|].
        subst log'. destruct (str_truthy (llm_api_key env)); eauto.
      * eexists _, _. split; [reflexivity|]. cbn in *.
        split; [tauto|]. split; [discriminate|].
        subst log'. destruct (str_truthy (llm_api_key env)); eauto.
Qed.

End RefineMore.

(** ** More on uploads *)

Section UploadMore.

Variable env : environment.

(** X18: with a credential and a reply that has a content, a readable
    .docx is answered 200 whatever its paragraphs; the text sent to the
    LLM is the joined text as it is, not trimmed, and the diagram is the
    sanitized reply when it starts with "graph", else the fixed error
    diagram. *)
Theorem generate_docx_reply (name : string) (paragraphs : list paragraph)
    (content : string) (ft : option string) (log : calls) :
  str_truthy (llm_api_key env) = true ->
  name <> "" ->
  endswith (lower name) ".docx" = true ->
  client env (initial_request (join NL (map text paragraphs)))
  = Return (Some content) ->
  generate_flowchart env
    {| files_file := Some {| filename := name; read := Return paragraphs |};
       form_text := ft |} log
  = (Return
       (jsonify
          [("mermaid_code",
            if startswith (sanitize content) "graph"
            then sanitize content
            else "graph TD\nError[LLM did not return valid Mermaid code]")]
          200),
     (log ++ [initial_request (join NL (map text paragraphs))])%list).
Proof.
  intros Hkey Hname Hext Hreply. rewrite generate_flowchart_upload, Hext.
  destruct (String.eqb_spec name ""); [contradiction|].
  rewrite (initial_flowchart_configured _ _ _ Hkey), Hreply.
  now rewrite sanitize_stripped.
Qed.

(** X19: a part under 'file' with an empty file name, which is what a
    form sends when no file was chosen, is refused with 400 "No file
    selected." whatever the text field holds; the LLM is not called. *)
Theorem generate_no_file_selected (rd : result (list paragraph))
    (ft : option string) (log : calls) :
  generate_flowchart env
    {| files_file := Some {| filename := ""; read := rd |};
       form_text := ft |} log
  = (Return (jsonify [("error", "No file selected.")] 400), log).
Proof. now rewrite generate_flowchart_upload. Qed.

End UploadMore.

(** ** The further properties, on stub environments *)

Section MoreScenarios.

(** X1 at a reply with a space before the block and line feeds inside
    and after it. *)
Lemma sanitize_fenced_block_witness :
  strip " " = "" /\ strip NL = "" /\ strip graph_AB = graph_AB
  /\ sanitize (" " +:+ "```mermaid" +:+ NL +:+ graph_AB +:+ NL +:+ "```" +:+ NL)
     = graph_AB.
Proof.
  split; [reflexivity|]. split; [reflexivity|]. split; [reflexivity|].
  exact (sanitize_fenced_block " " NL NL NL graph_AB
           eq_refl eq_refl eq_refl eq_refl eq_refl).
Defined.

(** X7 at a text file sent together with a text. *)
Lemma generate_wrong_extension_witness :
  endswith (lower "Notes.TXT") ".docx" = false
  /\ generate_flowchart (stub (Some "sk-test") (Return (Some fenced_graph_AB)))
       {| files_file :=
            Some {| filename := "Notes.TXT";
                    read := Return [ {| text := "Step 1" |} ] |};
          form_text := Some "Order process" |} []
     = (Return
          (jsonify
             [("error", "Invalid file type. Please upload a .docx file.")] 400),
        []).
Proof.
  split; [reflexivity|].
  apply generate_wrong_extension; [discriminate|reflexivity].
Defined.

(** X9 at a document that is not a zip archive. *)
Lemma generate_unreadable_docx_witness :
  endswith (lower "Process.DOCX") ".docx" = true
  /\ generate_flowchart (stub (Some "sk-test") (Return (Some fenced_graph_AB)))
       {| files_file :=
            Some {| filename := "Process.DOCX";
                    read := Raise (Exception "File is not a zip file") |};
          form_text := None |} []
     = (Return
          (jsonify [("error", "Error extracting text from DOCX file.")] 400),
        []).
Proof.
  split; [reflexivity|].
  apply generate_unreadable_docx; [discriminate|reflexivity].
Defined.

(** X11 at a text with white space around it and a reply that is an
    apology. *)
Lemma generate_text_reply_witness :
  let env := stub (Some "sk-test") (Return (Some "Sorry, I cannot help.")) in
  let t := "  Order process: receive, ship, invoice " +:+ NL in
  strip t = "Order process: receive, ship, invoice"
  /\ generate_flowchart env {| files_file := None; form_text := Some t |} []
     = (Return
          (jsonify
             [("mermaid_code",
               "graph TD\nError[LLM did not return valid Mermaid code]")]
             200),
        [initial_request "Order process: receive, ship, invoice"]).
Proof.
  intros env t. split; [reflexivity|].
  exact (generate_text_reply env t "Sorry, I cannot help." [] eq_refl
           ltac:(discriminate) eq_refl).
Defined.

(** X12 at a body that is the array [1]. *)
Lemma refine_not_an_object_witness :
  refine_flowchart (stub (Some "sk-test") (Return (Some fenced_graph_AB)))
    {| get_json := Return (PList [PInt 1]) |} []
  = (Return
       (jsonify
          [("error", "An unexpected error occurred during refinement.")] 500),
     []).
Proof.
  exact (refine_not_an_object
           (stub (Some "sk-test") (Return (Some fenced_graph_AB)))
           {| get_json := Return (PList [PInt 1]) |} []
           ltac:(intros d; discriminate)).
Defined.

(** X13 at an instruction that is the number zero. *)
Lemma refine_falsy_field_witness :
  let d : gmap string pyval :=
    <["instruction" := PInt 0]> {["current_mermaid" := PStr graph_AB]} in
  refine_flowchart (stub (Some "sk-test") (Return (Some fenced_graph_AB)))
    (json_request d) []
  = (Return (jsonify missing_fields 400), []).
Proof.
  intros d.
  exact (refine_falsy_field
           (stub (Some "sk-test") (Return (Some fenced_graph_AB)))
           d (PInt 0) [] (or_intror eq_refl) eq_refl).
Defined.

(** X14 at a reply that is the fenced diagram. *)
Lemma refine_string_reply_witness :
  let env := stub (Some "sk-test") (Return (Some fenced_graph_AB)) in
  let d : gmap string pyval :=
    <["instruction" := PStr "add a step B after A"]>
      {["current_mermaid" := PStr "graph TD"]} in
  refine_flowchart env (json_request d) []
  = (Return (jsonify [("mermaid_code", graph_AB)] 200),
     [refinement_request "graph TD" "add a step B after A"]).
Proof.
  intros env d.
  exact (refine_string_reply env d "graph TD" "add a step B after A"
           fenced_graph_AB [] eq_refl eq_refl ltac:(discriminate)
           eq_refl ltac:(discriminate) eq_refl).
Defined.

(** X15 at a stub without a credential. *)
Lemma refine_keeps_diagram_witness :
  let env := stub None (Return (Some fenced_graph_AB)) in
  let d : gmap string pyval :=
    <["instruction" := PStr "add a step C after B"]>
      {["current_mermaid" := PStr graph_AB]} in
  exists code : string,
    refine_flowchart env (json_request d) []
    = (Return (jsonify [("mermaid_code", code)] 200), [])
    /\ (startswith code "graph" = true
        \/ exists note, code = graph_AB +:+ "\n%% " +:+ note).
Proof.
  intros env d.
  exact (refine_keeps_diagram env d graph_AB "add a step C after B" []
           eq_refl ltac:(discriminate) eq_refl ltac:(discriminate)).
Defined.

(** X16 at a diagram that is the number 5, without a credential. *)
Lemma refine_non_string_diagram_witness :
  let env := stub None (Return (Some "Sorry, I cannot help.")) in
  let d : gmap string pyval :=
    <["instruction" := PStr "add a step"]> {["current_mermaid" := PInt 5]} in
  refine_flowchart env (json_request d) []
  = (Return
       (jsonify
          [("error", "An unexpected error occurred during refinement.")] 500),
     []).
Proof.
  intros env d.
  exact (refine_non_string_diagram env d (PInt 5) (PStr "add a step") []
           eq_refl ltac:(intros s; discriminate) eq_refl eq_refl eq_refl).
Defined.

(** X18 at a document of three paragraphs, the second empty. *)
Lemma generate_docx_reply_witness :
  let env := stub (Some "sk-test") (Return (Some fenced_graph_AB)) in
  let paragraphs :=
    [ {| text := "Step 1" |}; {| text := "" |}; {| text := "Step 2" |} ] in
  generate_flowchart env
    {| files_file :=
         Some {| filename := "Process.docx"; read := Return paragraphs |};
       form_text := None |} []
  = (Return (jsonify [("mermaid_code", graph_AB)] 200),
     [initial_request ("Step 1" +:+ NL +:+ NL +:+ "Step 2")]).
Proof.
  intros env paragraphs.
  exact (generate_docx_reply env "Process.docx" paragraphs fenced_graph_AB
           None [] eq_refl ltac:(discriminate) eq_refl eq_refl).
Defined.

End MoreScenarios.
